(** * The reproducibility how-to of probatus, as a program and its recorded output

    The source is one Jupyter notebook, [docs/howto/reproducibility.ipynb].
    Its code cells are straight-line Python that calls into scikit-learn,
    numpy and [probatus.feature_elimination]; its last cell carries the
    recorded rendering of the report returned by [ShapRFECV.fit_compute].

    The development embeds
    - the code cells as a small Python syntax tree ([expr], [stmt], [cell]),
    - the way a kernel runs them as an interpreter in a state-and-error
      monad whose library calls are recorded, uninterpreted, in a trace,
    - the recorded [text/plain] output, line by line, with a reader for the
      way pandas lays a frame out as text,
    - the elimination routine itself, which is not part of the notebook, as
      the glossary describes it, with importance, performance and the
      number of features removed per round left as parameters. *)

From Stdlib Require Import ZArith QArith Qround String Ascii List Bool Lia.
From stdpp Require Import base option list gmap sets strings sorting.

Import ListNotations.
Set Warnings "-register-all".
Local Open Scope string_scope.
Local Open Scope list_scope.
Local Open Scope Z_scope.

(** ** Syntax of the Python fragment the notebook is written in *)

Module Py.

Inductive expr : Type :=
| EName (x : string)
| EInt (n : Z)
| EFloat (q : Q)                 (* a decimal literal, kept exact: 0.2 is 2 # 10 *)
| EStr (s : string)
| EBool (b : bool)
| EList (es : list expr)
| EDict (kvs : list (expr * expr))
| EAttr (e : expr) (a : string)
| ECall (f : expr) (args : list expr) (kwargs : list (string * expr))
| ESubscript (e : expr) (i : expr).

Inductive stmt : Type :=
| SImportFrom (module : string) (names : list string)
| SImport (module : string) (asname : string)
| SAssign (targets : list string) (e : expr)
| SExpr (e : expr).

(** A notebook cell.  A markdown cell carries no code (only its first line
    is kept, to find it again); a code cell has the execution counter the
    kernel stamped on it, its statements (comments dropped), and the lines
    of its recorded [text/plain] result, without their line feeds. *)
Inductive cell : Type :=
| Markdown (first_line : string)
| Code (execution_count : nat) (source : list stmt) (output : list string).

End Py.
Import Py.

(** ** The notebook *)

Definition cell_dataset : cell :=
  Code 8
    [ SImportFrom "sklearn.datasets" ["make_classification"];
      SAssign ["X"; "y"]
        (ECall (EName "make_classification") []
           [("n_samples", EInt 100); ("n_features", EInt 10);
            ("random_state", EInt 42)]) ]
    [].

Definition cell_splits : cell :=
  Code 9
    [ SImportFrom "sklearn.model_selection" ["StratifiedKFold"];
      SImportFrom "sklearn.model_selection" ["train_test_split"];
      SAssign ["X_train"; "X_test"; "y_train"; "y_test"]
        (ECall (EName "train_test_split") [EName "X"; EName "y"]
           [("random_state", EInt 42)]);
      SAssign ["cv1"] (EInt 5);
      SAssign ["cv2"]
        (ECall (EName "StratifiedKFold") []
           [("n_splits", EInt 5); ("shuffle", EBool true);
            ("random_state", EInt 42)]) ]
    [].

Definition cell_classifier : cell :=
  Code 10
    [ SImportFrom "sklearn.ensemble" ["RandomForestClassifier"];
      SAssign ["clf"]
        (ECall (EName "RandomForestClassifier") []
           [("random_state", EInt 42)]) ]
    [].

Definition cell_search : cell :=
  Code 15
    [ SImportFrom "sklearn.model_selection" ["RandomizedSearchCV"];
      SAssign ["param_grid"]
        (EDict
           [ (EStr "n_estimators", EList [EInt 5; EInt 7; EInt 10]);
             (EStr "max_leaf_nodes", EList [EInt 3; EInt 5; EInt 7; EInt 10]) ]);
      SAssign ["search"]
        (ECall (EName "RandomizedSearchCV") [EName "clf"; EName "param_grid"]
           [("n_iter", EInt 1); ("random_state", EInt 42)]) ]
    [].

Definition cell_seed : cell :=
  Code 16
    [ SImport "numpy" "np";
      SExpr (ECall (EAttr (EAttr (EName "np") "random") "seed") [EInt 42] []) ]
    [].

Definition cell_elimination : cell :=
  Code 17
    [ SImportFrom "probatus.feature_elimination" ["ShapRFECV"];
      SAssign ["shap_elimination"]
        (ECall (EName "ShapRFECV") []
           [("clf", EName "search"); ("step", EFloat (2 # 10));
            ("cv", EName "cv2"); ("scoring", EStr "roc_auc");
            ("n_jobs", EInt 3); ("random_state", EInt 42)]);
      SAssign ["report"]
        (ECall (EAttr (EName "shap_elimination") "fit_compute")
           [EName "X"; EName "y"] []) ]
    [].

Definition report_text : list string :=
  [ "   num_features eliminated_features  val_metric_mean";
    "1            10              [8, 9]            0.983";
    "2             8                 [5]            0.969";
    "3             7                 [7]            0.984";
    "4             6                 [1]            0.979";
    "5             5                 [4]            0.978";
    "6             4                 [6]            0.989";
    "7             3                 [3]            0.991";
    "8             2                 [0]            0.956";
    "9             1                  []            0.969" ].

Definition cell_report : cell :=
  Code 19
    [ SExpr
        (ESubscript (EName "report")
           (EList [EStr "num_features"; EStr "eliminated_features";
                   EStr "val_metric_mean"])) ]
    report_text.

Definition notebook : list cell :=
  [ Markdown "# How to ensure reproducibility of the results";
    Markdown "This page describes how to make sure that the analysis that you perform using `probatus` is fully reproducible.";
    cell_dataset;
    Markdown "### Static data splits";
    cell_splits;
    Markdown "### Static classifier";
    cell_classifier;
    Markdown "### Static search CV for hyperparameter tuning";
    cell_search;
    Markdown "### Any other sources of randomness";
    Markdown "Before running `probatus` modules think about the inputs, and consider if there is any other type of randomness involved. If there is, one option to possibly solve the issue is setting the random seed at the beginning of the code";
    cell_seed;
    Markdown "## Reproducibility in probatus";
    cell_elimination;
    cell_report ].

(** ** Running the notebook

    A kernel runs the code cells one after the other, top to bottom, against
    one global namespace.  Library entry points are not interpreted: a call
    is recorded in the trace with the values it received and returns an
    opaque object that remembers which entry point made it. *)

Module Kernel.

Inductive value : Type :=
| VInt (n : Z)
| VFloat (q : Q)
| VStr (s : string)
| VBool (b : bool)
| VList (vs : list value)
| VDict (kvs : list (value * value))
| VModule (name : string)               (* [import m as x] *)
| VExtern (qualname : string)           (* a callable reached through an import *)
| VObj (origin : string) (path : list nat).
    (* what a library call returned; [path] selects a component when
       the result was unpacked into several names *)

Record event : Type := Event {
  callee : string;
  args : list value;
  kwargs : list (string * value)
}.

Inductive error : Type :=
| NameError (x : string)
| TypeError (what : string)
| AttributeError (a : string)
| IndexError
| KeyError
| ValueError (what : string).

Record state : Type := State {
  globals : gmap string value;
  trace : list event          (* oldest call first *)
}.

Definition initial : state := State ∅ [].

Inductive result (A : Type) : Type :=
| Ok (a : A) (st : state)
| Raise (e : error).
Arguments Ok {A} a st.
Arguments Raise {A} e.

Definition M (A : Type) : Type := state -> result A.

Definition ret {A} (a : A) : M A := fun st => Ok a st.
Definition raise {A} (e : error) : M A := fun _ => Raise e.
Definition bind {A B} (m : M A) (k : A -> M B) : M B :=
  fun st => match m st with
            | Ok a st' => k a st'
            | Raise e => Raise e
            end.

Notation "'let*' x ':=' m 'in' k" := (bind m (fun x => k))
  (at level 10, x name, m at level 100, k at level 200).

Definition load (x : string) : M value :=
  fun st => match globals st !! x with
            | Some v => Ok v st
            | None => Raise (NameError x)
            end.

Definition store (x : string) (v : value) : M unit :=
  fun st => Ok tt (State (<[x := v]> (globals st)) (trace st)).

Definition emit (ev : event) : M unit :=
  fun st => Ok tt (State (globals st) (trace st ++ [ev])).

Definition dotted (q a : string) : string := q +:+ "." +:+ a.

(** [e.a]: an attribute of a module or of a library object is again
    something of the library; literals have no attribute the notebook uses. *)
Definition getattr (v : value) (a : string) : M value :=
  match v with
  | VModule m => ret (VExtern (dotted m a))
  | VExtern q => ret (VExtern (dotted q a))
  | VObj o [] => ret (VExtern (dotted o a))
  | _ => raise (AttributeError a)
  end.

(** [f(args, kwargs)]: only library callables exist, the notebook defines
    no function of its own. *)
Definition call (f : value) (avs : list value) (kvs : list (string * value))
  : M value :=
  match f with
  | VExtern q => let* _ := emit (Event q avs kvs) in ret (VObj q [])
  | _ => raise (TypeError "object is not callable")
  end.

Fixpoint dict_get (kvs : list (value * value)) (k : string) : option value :=
  match kvs with
  | [] => None
  | (VStr k', v) :: rest => if String.eqb k' k then Some v else dict_get rest k
  | _ :: rest => dict_get rest k
  end.

(** [v[i]]: subscripting a library object is a call into the library
    (its [__getitem__]); lists and dicts are indexed as Python does. *)
Definition getitem (v i : value) : M value :=
  match v, i with
  | VObj o [], _ =>
      let q := dotted o "__getitem__" in
      let* _ := emit (Event q [i] []) in ret (VObj q [])
  | VList vs, VInt n =>
      let k := if 0 <=? n then n else Z.of_nat (length vs) + n in
      if 0 <=? k then
        match vs !! Z.to_nat k with
        | Some x => ret x
        | None => raise IndexError
        end
      else raise IndexError
  | VDict kvs, VStr k =>
      match dict_get kvs k with
      | Some x => ret x
      | None => raise KeyError
      end
  | _, _ => raise (TypeError "object is not subscriptable")
  end.

(** Python evaluates the callee, then the positional arguments, then the
    keyword arguments, each group left to right. *)
Fixpoint eval (e : expr) : M value :=
  match e with
  | EName x => load x
  | EInt n => ret (VInt n)
  | EFloat q => ret (VFloat q)
  | EStr s => ret (VStr s)
  | EBool b => ret (VBool b)
  | EList es =>
      let* vs :=
        (fix go (es : list expr) : M (list value) :=
           match es with
           | [] => ret []
           | e :: es => let* v := eval e in let* vs := go es in ret (v :: vs)
           end) es in
      ret (VList vs)
  | EDict kvs =>
      let* vs :=
        (fix go (kvs : list (expr * expr)) : M (list (value * value)) :=
           match kvs with
           | [] => ret []
           | (k, e) :: kvs =>
               let* kv := eval k in
               let* v := eval e in
               let* vs := go kvs in
               ret ((kv, v) :: vs)
           end) kvs in
      ret (VDict vs)
  | EAttr e a => let* v := eval e in getattr v a
  | ECall f args kwargs =>
      let* fv := eval f in
      let* avs :=
        (fix go (es : list expr) : M (list value) :=
           match es with
           | [] => ret []
           | e :: es => let* v := eval e in let* vs := go es in ret (v :: vs)
           end) args in
      let* kvs :=
        (fix go (kws : list (string * expr)) : M (list (string * value)) :=
           match kws with
           | [] => ret []
           | (k, e) :: kws =>
               let* v := eval e in let* vs := go kws in ret ((k, v) :: vs)
           end) kwargs in
      call fv avs kvs
  | ESubscript e i => let* v := eval e in let* iv := eval i in getitem v iv
  end.

Fixpoint store_all (xs : list string) (vs : list value) : M unit :=
  match xs, vs with
  | [], [] => ret tt
  | x :: xs, v :: vs => let* _ := store x v in store_all xs vs
  | [], _ :: _ => raise (ValueError "too many values to unpack")
  | _ :: _, [] => raise (ValueError "not enough values to unpack")
  end.

(** [x = e] binds one name; [x1, ..., xn = e] unpacks a list literal
    element-wise and a library result into its components. *)
Definition assign (targets : list string) (v : value) : M unit :=
  match targets with
  | [x] => store x v
  | _ =>
      match v with
      | VList vs => store_all targets vs
      | VObj o [] =>
          store_all targets (imap (fun i _ => VObj o [i]) targets)
      | _ => raise (TypeError "cannot unpack non-iterable object")
      end
  end.

Fixpoint import_from (m : string) (names : list string) : M unit :=
  match names with
  | [] => ret tt
  | x :: names =>
      let* _ := store x (VExtern (dotted m x)) in import_from m names
  end.

(** A statement yields the value an interactive kernel would display for
    it: that of an expression statement, nothing for the others. *)
Definition exec (s : stmt) : M (option value) :=
  match s with
  | SImportFrom m names => let* _ := import_from m names in ret None
  | SImport m x => let* _ := store x (VModule m) in ret None
  | SAssign targets e =>
      let* v := eval e in let* _ := assign targets v in ret None
  | SExpr e => let* v := eval e in ret (Some v)
  end.

(** The statements of a cell in order; the cell displays what its last
    statement yields. *)
Fixpoint exec_block (ss : list stmt) (shown : option value) : M (option value) :=
  match ss with
  | [] => ret shown
  | s :: ss => let* v := exec s in exec_block ss v
  end.

Definition run_cell (c : cell) : M (option value) :=
  match c with
  | Markdown _ => ret None
  | Code _ src _ => exec_block src None
  end.

(** One pass over the cells, in document order.  For every code cell the
    calls it made are returned, in the order it made them. *)
Fixpoint run_cells (cs : list cell) : M (list (list event)) :=
  match cs with
  | [] => ret []
  | Markdown _ :: cs => run_cells cs
  | (Code _ _ _ as c) :: cs =>
      fun st =>
        match run_cell c st with
        | Ok _ st' =>
            match run_cells cs st' with
            | Ok evs st'' =>
                Ok (drop (length (trace st)) (trace st') :: evs) st''
            | Raise e => Raise e
            end
        | Raise e => Raise e
        end
  end.

Definition run (cs : list cell) : result (list (list event)) :=
  run_cells cs initial.

Definition final_trace {A} (r : result A) : list event :=
  match r with
  | Ok _ st => trace st
  | Raise _ => []
  end.

Definition returned {A} (r : result (list A)) : list A :=
  match r with
  | Ok a _ => a
  | Raise _ => []
  end.

(** A computation only ever adds to the trace. *)
Definition appends {A} (m : M A) : Prop :=
  forall st a st', m st = Ok a st' -> exists evs, trace st' = trace st ++ evs.

End Kernel.
Import Kernel.

(** ** Reading the recorded table

    The result of the last cell is a pandas frame, recorded the way pandas
    prints one: a header line with the column names (blank above the index
    column), then one line per row holding the row label and the cells,
    right-aligned and separated by blanks.  A list cell is printed as Python
    prints a list, so a blank inside square brackets does not end a field. *)

Module Frame.

Inductive cellv : Type :=
| CInt (n : Z)
| CFloat (q : Q)
| CList (l : list Z)
| CNaN.                       (* how pandas prints a missing number *)

Record DataFrame : Type := {
  columns : list string;
  index : list Z;
  data : list (list cellv)
}.

Definition snoc (s : string) (c : ascii) : string := s +:+ String c "".

Definition flush (cur : string) (rest : list string) : list string :=
  if String.eqb cur "" then rest else cur :: rest.

(** The fields of a line: maximal runs without a blank outside brackets. *)
Fixpoint fields_go (s : string) (depth : nat) (cur : string) : list string :=
  match s with
  | "" => flush cur []
  | String c s' =>
      if Ascii.eqb c "[" then fields_go s' (S depth) (snoc cur c)
      else if Ascii.eqb c "]" then fields_go s' (Nat.pred depth) (snoc cur c)
      else if Ascii.eqb c " " && Nat.eqb depth 0 then flush cur (fields_go s' 0%nat "")
      else fields_go s' depth (snoc cur c)
  end.

Definition fields (s : string) : list string := fields_go s 0%nat "".

Definition digit (c : ascii) : option Z :=
  let n := Z.of_nat (nat_of_ascii c) in
  if (48 <=? n) && (n <=? 57) then Some (n - 48) else None.

Fixpoint digits_go (s : string) (acc : Z) : option Z :=
  match s with
  | "" => Some acc
  | String c s' => d ← digit c; digits_go s' (10 * acc + d)
  end.

Definition digits (s : string) : option Z :=
  if String.eqb s "" then None else digits_go s 0.

Definition read_int (s : string) : option Z :=
  match s with
  | String "-" s' => Z.opp <$> digits s'
  | _ => digits s
  end.

(** [split_at c s]: the part before the first [c] and the part after it. *)
Fixpoint split_at (c : ascii) (s : string) : option (string * string) :=
  match s with
  | "" => None
  | String d s' =>
      if Ascii.eqb d c then Some ("", s')
      else '(a, b) ← split_at c s'; Some (String d a, b)
  end.

(** A decimal numeral [i.f] is the rational [(i * 10^|f| + f) / 10^|f|]. *)
Definition read_decimal (s : string) : option Q :=
  let '(neg, body) := match s with
                      | String "-" s' => (true, s')
                      | _ => (false, s)
                      end in
  '(ip, fp) ← split_at "." body;
  i ← digits ip;
  f ← digits fp;
  let scale := 10 ^ Z.of_nat (String.length fp) in
  let m := i * scale + f in
  Some (Qmake (if neg then - m else m) (Z.to_pos scale)).

Fixpoint split_on (c : ascii) (s : string) (cur : string) : list string :=
  match s with
  | "" => [cur]
  | String d s' =>
      if Ascii.eqb d c then cur :: split_on c s' "" else split_on c s' (snoc cur d)
  end.

Fixpoint lstrip (s : string) : string :=
  match s with
  | String " " s' => lstrip s'
  | _ => s
  end.

(** [[8, 9]] is the list 8, 9 and [[]] the empty one. *)
Definition read_list (s : string) : option (list Z) :=
  match s with
  | String "[" s' =>
      '(inner, after) ← split_at "]" s';
      if negb (String.eqb after "") then None
      else if String.eqb inner "" then Some []
      else mapM (fun x => read_int (lstrip x)) (split_on "," inner "")
  | _ => None
  end.

Definition has_char (c : ascii) (s : string) : bool :=
  match split_at c s with Some _ => true | None => false end.

Definition read_cell (s : string) : option cellv :=
  if String.eqb s "NaN" then Some CNaN
  else if has_char "[" s then CList <$> read_list s
  else if has_char "." s then CFloat <$> read_decimal s
  else CInt <$> read_int s.

Definition read_row (ncols : nat) (line : string) : option (Z * list cellv) :=
  match fields line with
  | [] => None
  | label :: cells =>
      i ← read_int label;
      vs ← mapM read_cell cells;
      if Nat.eqb (length vs) ncols then Some (i, vs) else None
  end.

Definition read_frame (lines : list string) : option DataFrame :=
  match lines with
  | [] => None
  | header :: rows =>
      let cols := fields header in
      rs ← mapM (read_row (length cols)) rows;
      Some {| columns := cols; index := rs.*1; data := rs.*2 |}
  end.

Fixpoint position (name : string) (cols : list string) : option nat :=
  match cols with
  | [] => None
  | c :: cols => if String.eqb c name then Some 0%nat else S <$> position name cols
  end.

(** [df[name]]: the cells of one column, top to bottom. *)
Definition column (df : DataFrame) (name : string) : option (list cellv) :=
  i ← position name (columns df);
  mapM (fun row => row !! i) (data df).

End Frame.
Import Frame.

(** ** The report, round by round *)

(** One row of the report.  The metric is optional because a frame can
    hold a missing number. *)
Record round : Type := Round {
  round_no : Z;
  num_features : Z;
  eliminated_features : list Z;
  val_metric_mean : option Q
}.

Definition as_int (c : cellv) : option Z :=
  match c with CInt n => Some n | _ => None end.

Definition as_list (c : cellv) : option (list Z) :=
  match c with CList l => Some l | _ => None end.

Definition as_metric (c : cellv) : option (option Q) :=
  match c with
  | CFloat q => Some (Some q)
  | CNaN => Some None
  | _ => None
  end.

Fixpoint make_rounds (labels ns : list Z) (es : list (list Z)) (ms : list (option Q))
  : list round :=
  match labels, ns, es, ms with
  | i :: labels, n :: ns, e :: es, m :: ms =>
      Round i n e m :: make_rounds labels ns es ms
  | _, _, _, _ => []
  end.

Definition rounds_of (df : DataFrame) : option (list round) :=
  ns ← column df "num_features" ≫= mapM as_int;
  es ← column df "eliminated_features" ≫= mapM as_list;
  ms ← column df "val_metric_mean" ≫= mapM as_metric;
  Some (make_rounds (index df) ns es ms).

(** What the notebook recorded: the output lines of its code cells, in
    document order (only the last cell has any). *)
Definition recorded_output (cs : list cell) : list string :=
  flat_map (fun c => match c with
                     | Markdown _ => []
                     | Code _ _ out => out
                     end) cs.

Definition report_frame : option DataFrame :=
  read_frame (recorded_output notebook).

Definition report : list round :=
  default [] (report_frame ≫= rounds_of).

(** ** What the notebook asks of the libraries *)

(** The entry points called, oldest first. *)
Definition calls_made (cs : list cell) : list string :=
  map callee (final_trace (run cs)).

Fixpoint assoc (k : string) (kvs : list (string * value)) : option value :=
  match kvs with
  | [] => None
  | (k', v) :: kvs => if String.eqb k' k then Some v else assoc k kvs
  end.

(** The value passed for keyword [k] in the first call of entry point [f]. *)
Definition keyword (f k : string) (tr : list event) : option value :=
  ev ← find (fun ev => String.eqb (callee ev) f) tr;
  assoc k (kwargs ev).

Definition shap_step : option Q :=
  match keyword "probatus.feature_elimination.ShapRFECV" "step"
          (final_trace (run notebook)) with
  | Some (VFloat q) => Some q
  | _ => None
  end.

Definition n_features : option Z :=
  match keyword "sklearn.datasets.make_classification" "n_features"
          (final_trace (run notebook)) with
  | Some (VInt n) => Some n
  | _ => None
  end.

(** The calls that were handed keyword [k], with the value handed. *)
Definition calls_with_keyword (k : string) (tr : list event)
  : list (string * value) :=
  flat_map (fun ev => match assoc k (kwargs ev) with
                      | Some v => [(callee ev, v)]
                      | None => []
                      end) tr.

(** The column names a cell selects when its only statement is
    [frame[[c1, ..., cn]]]. *)
Definition as_str (e : expr) : option string :=
  match e with EStr s => Some s | _ => None end.

Definition selected_columns (c : cell) : option (list string) :=
  match c with
  | Code _ [SExpr (ESubscript _ (EList names))] _ => mapM as_str names
  | _ => None
  end.

Definition execution_counts (cs : list cell) : list nat :=
  flat_map (fun c => match c with
                     | Markdown _ => []
                     | Code n _ _ => [n]
                     end) cs.

Definition imported_modules (cs : list cell) : list string :=
  flat_map (fun c =>
    match c with
    | Markdown _ => []
    | Code _ src _ =>
        flat_map (fun s => match s with
                           | SImportFrom m _ => [m]
                           | SImport m _ => [m]
                           | _ => []
                           end) src
    end) cs.


(** ** Properties of a report, as checks that run *)

Definition removed (r : round) : Z := Z.of_nat (length (eliminated_features r)).

(** Each row starts with the features its predecessor kept. *)
Fixpoint chained (rs : list round) : bool :=
  match rs with
  | r :: rest =>
      match rest with
      | r' :: _ => (num_features r' =? num_features r - removed r) && chained rest
      | [] => true
      end
  | [] => true
  end.

(** The number of features a round with [n] features left gives up under a
    fractional [step]: the [step] share of them rounded down, but at least
    one. *)
Definition share (step : Q) (n : Z) : Z :=
  Z.max 1 (Qfloor (step * inject_Z n)).

(** The binary64 number Python reads the literal [0.2] as, and the bound
    on the relative change when a product is rounded to binary64. *)
Definition binary64_0_2 : Q := 3602879701896397 # 18014398509481984.
Definition binary64_ulp : Q := 1 # 4503599627370496.

(** Every feature eliminated in any round, in the order of elimination. *)
Definition eliminated_overall (rs : list round) : list Z :=
  concat (map eliminated_features rs).

Definition eliminated_sets (rs : list round) : list (gset Z) :=
  map (fun r => list_to_set (eliminated_features r)) rs.

(** The feature indices of a data set with [n] columns. *)
Definition feature_indices (n : Z) : gset Z := list_to_set (seqZ 0 n).

(** ** The steps the overview lists

    Data generation, splitting, classifier and search wrapper, the
    elimination routine, the rendering of the table: the entry points
    behind each, in the order given. *)
Definition listed_steps : list (list string) :=
  [ ["sklearn.datasets.make_classification"];
    ["sklearn.model_selection.train_test_split";
     "sklearn.model_selection.StratifiedKFold"];
    ["sklearn.ensemble.RandomForestClassifier";
     "sklearn.model_selection.RandomizedSearchCV"];
    ["probatus.feature_elimination.ShapRFECV";
     "probatus.feature_elimination.ShapRFECV.fit_compute"];
    ["probatus.feature_elimination.ShapRFECV.fit_compute.__getitem__"] ].






(** ** The same result, as HTML

    The notebook stores the result of its last cell a second time, as the
    HTML table pandas produces for it: one element per line, the column
    names as [th] cells of the one row of [thead], and in [tbody] one [tr]
    per row with the row label as [th] and the cells as [td]. *)

Definition dq : string := String (ascii_of_nat 34) "".

Definition report_html : list string :=
  [ "<div>";
    "<style scoped>";
    "    .dataframe tbody tr th:only-of-type {";
    "        vertical-align: middle;";
    "    }";
    "";
    "    .dataframe tbody tr th {";
    "        vertical-align: top;";
    "    }";
    "";
    "    .dataframe thead th {";
    "        text-align: right;";
    "    }";
    "</style>";
    ("<table border=" +:+ dq +:+ "1" +:+ dq +:+ " class=" +:+ dq +:+ "dataframe" +:+ dq +:+ ">");
    "  <thead>";
    ("    <tr style=" +:+ dq +:+ "text-align: right;" +:+ dq +:+ ">");
    "      <th></th>";
    "      <th>num_features</th>";
    "      <th>eliminated_features</th>";
    "      <th>val_metric_mean</th>";
    "    </tr>";
    "  </thead>";
    "  <tbody>";
    "    <tr>";
    "      <th>1</th>";
    "      <td>10</td>";
    "      <td>[8, 9]</td>";
    "      <td>0.983</td>";
    "    </tr>";
    "    <tr>";
    "      <th>2</th>";
    "      <td>8</td>";
    "      <td>[5]</td>";
    "      <td>0.969</td>";
    "    </tr>";
    "    <tr>";
    "      <th>3</th>";
    "      <td>7</td>";
    "      <td>[7]</td>";
    "      <td>0.984</td>";
    "    </tr>";
    "    <tr>";
    "      <th>4</th>";
    "      <td>6</td>";
    "      <td>[1]</td>";
    "      <td>0.979</td>";
    "    </tr>";
    "    <tr>";
    "      <th>5</th>";
    "      <td>5</td>";
    "      <td>[4]</td>";
    "      <td>0.978</td>";
    "    </tr>";
    "    <tr>";
    "      <th>6</th>";
    "      <td>4</td>";
    "      <td>[6]</td>";
    "      <td>0.989</td>";
    "    </tr>";
    "    <tr>";
    "      <th>7</th>";
    "      <td>3</td>";
    "      <td>[3]</td>";
    "      <td>0.991</td>";
    "    </tr>";
    "    <tr>";
    "      <th>8</th>";
    "      <td>2</td>";
    "      <td>[0]</td>";
    "      <td>0.956</td>";
    "    </tr>";
    "    <tr>";
    "      <th>9</th>";
    "      <td>1</td>";
    "      <td>[]</td>";
    "      <td>0.969</td>";
    "    </tr>";
    "  </tbody>";
    "</table>";
    "</div>" ].

Module Html.

Fixpoint strip_prefix (p s : string) : option string :=
  match p with
  | "" => Some s
  | String a p' =>
      match s with
      | "" => None
      | String b s' => if Ascii.eqb a b then strip_prefix p' s' else None
      end
  end.

(** The text of a line that is one whole element [<tag>text</tag>]. *)
Definition element (tag line : string) : option string :=
  body ← strip_prefix ("<" +:+ tag +:+ ">") line;
  '(text, close) ← split_at "<" body;
  if String.eqb close ("/" +:+ tag +:+ ">") then Some text else None.

Inductive place : Type := Outside | InHead | InBody.

Record acc : Type := Acc {
  at_place : place;
  names : list string;       (* the [th] cells of the head, corner included *)
  labels : list Z;
  rows : list (list cellv);
  current : list cellv       (* the cells of the row being read *)
}.

(** One line of markup.  Lines that are neither a section tag, the end of
    a row nor a cell (the wrapping [div], the style sheet, the opening
    [table] and [tr] tags) carry no data. *)
Definition step (a : acc) (raw : string) : option acc :=
  let line := lstrip raw in
  let '(Acc pl ns ls rs cur) := a in
  if String.eqb line "<thead>" then Some (Acc InHead ns ls rs cur)
  else if String.eqb line "<tbody>" then Some (Acc InBody ns ls rs cur)
  else if String.eqb line "</thead>" || String.eqb line "</tbody>"
  then Some (Acc Outside ns ls rs cur)
  else if String.eqb line "</tr>" then
    match pl with
    | InBody => Some (Acc pl ns ls (rs ++ [cur]) [])
    | _ => Some a
    end
  else
    match element "th" line with
    | Some text =>
        match pl with
        | InHead => Some (Acc pl (ns ++ [text]) ls rs cur)
        | InBody => i ← read_int text; Some (Acc pl ns (ls ++ [i]) rs cur)
        | Outside => None
        end
    | None =>
        match element "td" line with
        | Some text =>
            match pl with
            | InBody => c ← read_cell text; Some (Acc pl ns ls rs (cur ++ [c]))
            | _ => None
            end
        | None => Some a
        end
    end.

Fixpoint steps (a : acc) (lines : list string) : option acc :=
  match lines with
  | [] => Some a
  | l :: lines => a' ← step a l; steps a' lines
  end.

(** The frame of an HTML table: the head names without the empty corner
    above the labels; every row must have a label and one cell per name. *)
Definition read_html (lines : list string) : option DataFrame :=
  a ← steps (Acc Outside [] [] [] []) lines;
  match names a with
  | "" :: cols =>
      if Nat.eqb (length (labels a)) (length (rows a))
         && forallb (fun row => Nat.eqb (length row) (length cols)) (rows a)
      then Some {| columns := cols; index := labels a; data := rows a |}
      else None
  | _ => None
  end.

End Html.
Import Html.

(** ** Variations of the notebook *)

Definition final_globals {A} (r : result A) : gmap string value :=
  match r with
  | Ok _ st => globals st
  | Raise _ => ∅
  end.


(** The notebook without the code cell the kernel stamped [n]. *)
Definition without_cell (n : nat) (cs : list cell) : list cell :=
  List.filter (fun c => match c with
                        | Code k _ _ => negb (Nat.eqb k n)
                        | Markdown _ => true
                        end) cs.

(** ** Where the arguments of a call come from *)

(** Whether a value is, or holds, an object made by entry point [o]. *)
Fixpoint made_by (o : string) (v : value) : bool :=
  match v with
  | VObj o' _ => String.eqb o' o
  | VList vs => existsb (made_by o) vs
  | VDict kvs => existsb (fun kv => made_by o kv.1 || made_by o kv.2) kvs
  | _ => false
  end.

Definition receives (o : string) (ev : event) : bool :=
  existsb (made_by o) (args ev) || existsb (fun kv => made_by o kv.2) (kwargs ev).

Definition first_call (f : string) (tr : list event) : option event :=
  find (fun ev => String.eqb (callee ev) f) tr.

(** A call is seeded when it is given [random_state=42], or is the seeding
    of numpy's generator with 42. *)
Definition seeded (ev : event) : bool :=
  match assoc "random_state" (kwargs ev) with
  | Some (VInt 42) => true
  | _ =>
      String.eqb (callee ev) "numpy.random.seed"
      && match args ev with
         | [VInt 42] => true
         | _ => false
         end
  end.

(** ** The elimination routine *)

(** Modelled from the spec: the order of importance used by the routine
    behind [ShapRFECV.fit_compute], which lives in
    [probatus.feature_elimination] and is not among the sources.  The
    glossary speaks of the least-important input features; how importance
    is measured is not said, so it is a parameter [imp]. *)
Definition less_important (imp : Z -> Q) : relation Z :=
  fun x y => (imp x <= imp y)%Q.

Definition less_important_dec (imp : Z -> Q) (x y : Z)
  : Decision (less_important imp x y) :=
  decide (Qnum (imp x) * QDen (imp y) <= Qnum (imp y) * QDen (imp x)).

Section Elimination.

Variable importance : list Z -> Z -> Q.   (* of a feature, among those in play *)
Variable performance : list Z -> Q.       (* of the model on those in play *)
Variable quota : nat -> nat.              (* features to give up, of so many *)

(** Modelled from the spec: the features in play, least important first
    (the routine itself is not among the sources). *)
Definition ranked (fs : list Z) : list Z :=
  @merge_sort Z (less_important (importance fs))
    (less_important_dec (importance fs)) fs.

(** Modelled from the spec: the features a round removes, the least
    important ones; how many is not said and left to [quota]. *)
Definition least_important (fs : list Z) : list Z :=
  take (quota (length fs)) (ranked fs).

(** Modelled from the spec: the features a round hands to the next. *)
Definition survivors (fs : list Z) : list Z :=
  drop (quota (length fs)) (ranked fs).

(** Modelled from the spec: the routine behind [ShapRFECV.fit_compute],
    which is not among the sources.  The glossary describes it as an
    iterative procedure that repeatedly removes the least-important input
    features and records model performance at each step.  A round records
    how many features it starts from, which of them it removes and the
    performance on those it started from; the procedure goes on for as long
    as a round removes something.  The rounds are given from round [no]
    on, each with the features it started from. *)
Fixpoint elimination_rounds (fuel : nat) (no : Z) (fs : list Z)
  : list (list Z * round) :=
  match fuel with
  | O => []
  | S fuel =>
      let out := least_important fs in
      (fs, Round no (Z.of_nat (length fs)) out (Some (performance fs))) ::
      match out with
      | [] => []
      | _ :: _ => elimination_rounds fuel (no + 1) (survivors fs)
      end
  end.

(** Modelled from the spec: the report [fit_compute] returns, the rows of
    the rounds.  Every round but the last removes a feature, so there are
    at most as many rounds as features, and one. *)
Definition fit_compute (fs : list Z) : list round :=
  map snd (elimination_rounds (S (length fs)) 1 fs).

End Elimination.

(** The quota of a fractional step that keeps at least one feature: the
    share, but never all the features that are left. *)
Definition capped_share (step : Q) (n : nat) : nat :=
  Z.to_nat (Z.min (share step (Z.of_nat n)) (Z.of_nat n - 1)).

(** An importance and a performance under which the routine retraces a
    given report: a feature is the less important the earlier the report
    has it eliminated, and the performance on [n] features is the metric of
    the row with [n] features. *)
Fixpoint place_in (x : Z) (l : list Z) : Z :=
  match l with
  | [] => 0
  | y :: l => if x =? y then 0 else 1 + place_in x l
  end.

Definition elimination_rank (rs : list round) (fs : list Z) (x : Z) : Q :=
  inject_Z (place_in x (eliminated_overall rs)).

Definition metric_of_size (rs : list round) (fs : list Z) : Q :=
  match find (fun r => num_features r =? Z.of_nat (length fs)) rs with
  | Some r => default 0%Q (val_metric_mean r)
  | None => 0%Q
  end.

(** ** General facts about the reader *)

Lemma read_row_width (n : nat) (line : string) (i : Z) (vs : list cellv) :
  read_row n line = Some (i, vs) -> length vs = n.
Proof.
  unfold read_row. destruct (fields line) as [|label cells]; [done|].
  destruct (read_int label) as [k|]; simpl; [|done].
  destruct (mapM read_cell cells) as [ws|]; simpl; [|done].
  destruct (Nat.eqb (length ws) n) eqn:E; [|done].
  intros [= _ <-]. by apply Nat.eqb_eq.
Qed.

(** A frame read from text is rectangular: as many labels as rows, and in
    every row one cell for each column. *)
Lemma read_frame_shape (lines : list string) (df : DataFrame) :
  read_frame lines = Some df ->
  length (index df) = length (data df) /\
  S (length (data df)) = length lines /\
  Forall (fun row => length row = length (columns df)) (data df).
Proof.
  unfold read_frame. destruct lines as [|header rows]; [done|].
  destruct (mapM _ rows) as [rs|] eqn:E; simpl; [|done].
  intros [= <-]; simpl. apply mapM_Some in E.
  rewrite !length_fmap. split; [done|]. split.
  - by rewrite (Forall2_length _ _ _ E).
  - clear -E. induction E as [|line [i vs] ? ? H _ IH]; constructor; [|done].
    by apply read_row_width in H.
Qed.

(** ** General facts about the kernel

    A computation never rewrites the trace: whatever it does, the calls
    made before it are still there, in front of those it added. *)

Lemma appends_ret {A} (a : A) : appends (ret a).
Proof. intros st b st' [= _ <-]. exists []. by rewrite app_nil_r. Qed.

Lemma appends_raise {A} (e : error) : appends (@raise A e).
Proof. by intros st b st'. Qed.

Lemma appends_bind {A B} (m : M A) (k : A -> M B) :
  appends m -> (forall a, appends (k a)) -> appends (bind m k).
Proof.
  intros Hm Hk st b st'. unfold bind.
  destruct (m st) as [a st1|] eqn:E; [|done].
  intros Hb. destruct (Hm _ _ _ E) as [evs1 H1].
  destruct (Hk _ _ _ _ Hb) as [evs2 H2].
  exists (evs1 ++ evs2). by rewrite H2, H1, app_assoc.
Qed.

Lemma appends_load (x : string) : appends (load x).
Proof.
  intros st v st'. unfold load. destruct (globals st !! x); [|done].
  intros [= _ <-]. exists []. by rewrite app_nil_r.
Qed.

Lemma appends_store (x : string) (v : value) : appends (store x v).
Proof. intros st u st' [= _ <-]. exists []. simpl. by rewrite app_nil_r. Qed.

Lemma appends_emit (ev : event) : appends (emit ev).
Proof. intros st u st' [= _ <-]. by exists [ev]. Qed.

Lemma appends_getattr (v : value) (a : string) : appends (getattr v a).
Proof.
  destruct v as [| | | | | | | |o [|]]; simpl;
    auto using @appends_ret, @appends_raise.
Qed.

Lemma appends_call (f : value) avs kvs : appends (call f avs kvs).
Proof.
  destruct f; simpl; auto using @appends_raise.
  apply appends_bind; auto using appends_emit, @appends_ret.
Qed.

Lemma appends_getitem (v i : value) : appends (getitem v i).
Proof.
  destruct v as [| | | |vs|kvs| | |o [|]]; simpl; auto using @appends_raise.
  - destruct i; auto using @appends_raise.
    destruct (0 <=? _); auto using @appends_raise.
    destruct (vs !! _); auto using @appends_ret, @appends_raise.
  - destruct i; auto using @appends_raise.
    destruct (dict_get kvs s); auto using @appends_ret, @appends_raise.
  - apply appends_bind; auto using appends_emit, @appends_ret.
Qed.

Lemma appends_eval : forall e : expr, appends (eval e).
Proof.
  fix IH 1. intros [x|n|q|s|b|es|kvs|e a|f args kwargs|e i]; simpl.
  - apply appends_load.
  - apply appends_ret.
  - apply appends_ret.
  - apply appends_ret.
  - apply appends_ret.
  - apply appends_bind; [|intros; apply appends_ret].
    induction es as [|e es IHes]; [apply appends_ret|].
    apply appends_bind; [apply IH|]. intros v.
    apply appends_bind; [apply IHes|]. intros; apply appends_ret.
  - apply appends_bind; [|intros; apply appends_ret].
    induction kvs as [|[k e] kvs IHkvs]; [apply appends_ret|].
    apply appends_bind; [apply IH|]. intros kv.
    apply appends_bind; [apply IH|]. intros v.
    apply appends_bind; [apply IHkvs|]. intros; apply appends_ret.
  - apply appends_bind; [apply IH|]. intros; apply appends_getattr.
  - apply appends_bind; [apply IH|]. intros fv.
    apply appends_bind.
    { induction args as [|e es IHes]; [apply appends_ret|].
      apply appends_bind; [apply IH|]. intros v.
      apply appends_bind; [apply IHes|]. intros; apply appends_ret. }
    intros avs. apply appends_bind; [|intros; apply appends_call].
    induction kwargs as [|[k e] kws IHkws]; [apply appends_ret|].
    apply appends_bind; [apply IH|]. intros v.
    apply appends_bind; [apply IHkws|]. intros; apply appends_ret.
  - apply appends_bind; [apply IH|]. intros v.
    apply appends_bind; [apply IH|]. intros; apply appends_getitem.
Qed.

Lemma appends_store_all (xs : list string) (vs : list value) :
  appends (store_all xs vs).
Proof.
  revert vs. induction xs as [|x xs IH]; intros [|v vs]; simpl;
    auto using @appends_ret, @appends_raise.
  apply appends_bind; auto using appends_store.
Qed.

Lemma appends_assign (targets : list string) (v : value) :
  appends (assign targets v).
Proof.
  unfold assign. destruct targets as [|x [|y ys]].
  - destruct v as [| | | | | | | |o [|]];
      auto using @appends_raise, appends_store_all.
  - apply appends_store.
  - destruct v as [| | | | | | | |o [|]];
      auto using @appends_raise, appends_store_all.
Qed.

Lemma appends_import_from (m : string) (names : list string) :
  appends (import_from m names).
Proof.
  induction names as [|x names IH]; simpl; [apply appends_ret|].
  apply appends_bind; auto using appends_store.
Qed.

Lemma appends_exec (s : stmt) : appends (exec s).
Proof.
  destruct s; simpl.
  - apply appends_bind; [apply appends_import_from|intros; apply appends_ret].
  - apply appends_bind; [apply appends_store|intros; apply appends_ret].
  - apply appends_bind; [apply appends_eval|]. intros v.
    apply appends_bind; [apply appends_assign|intros; apply appends_ret].
  - apply appends_bind; [apply appends_eval|intros; apply appends_ret].
Qed.

Lemma appends_exec_block (ss : list stmt) (shown : option value) :
  appends (exec_block ss shown).
Proof.
  revert shown. induction ss as [|s ss IH]; intros shown; simpl.
  - apply appends_ret.
  - apply appends_bind; [apply appends_exec|]. intros; apply IH.
Qed.

Lemma appends_run_cell (c : cell) : appends (run_cell c).
Proof.
  destruct c; simpl; [apply appends_ret|apply appends_exec_block].
Qed.

(** One pass: the trace a run leaves is the trace it started from followed
    by the calls of the first code cell, then those of the second, and so
    on; nothing is called between cells and nothing is called twice. *)
Lemma run_cells_trace (cs : list cell) (st st' : state)
    (steps : list (list event)) :
  run_cells cs st = Ok steps st' -> trace st' = trace st ++ concat steps.
Proof.
  revert st steps. induction cs as [|c cs IH]; intros st steps; simpl.
  - intros [= <- <-]. simpl. by rewrite app_nil_r.
  - destruct c as [t|n src out]; [apply IH|].
    destruct (run_cell _ st) as [shown st1|] eqn:E1; [|done].
    destruct (run_cells cs st1) as [evs st2|] eqn:E2; [|done].
    intros [= <- <-]. apply IH in E2.
    destruct (appends_run_cell _ _ _ _ E1) as [evs1 H1].
    rewrite E2, H1. simpl. rewrite drop_app_length. by rewrite app_assoc.
Qed.

(** ** General facts about reports *)

Section Disjoint.

Context {A : Type}.

Lemma elem_of_concat_lookup (ls : list (list A)) (j : nat) (b : list A) (x : A) :
  ls !! j = Some b -> x ∈ b -> x ∈ concat ls.
Proof.
  revert j. induction ls as [|a ls IH]; intros j Hj Hx; [done|].
  simpl. apply elem_of_app. destruct j as [|j].
  - left. by injection Hj as ->.
  - right. by apply (IH j).
Qed.

(** Lists whose concatenation repeats nothing are pairwise disjoint. *)
Lemma concat_NoDup_disjoint (ls : list (list A)) :
  NoDup (concat ls) ->
  forall (i j : nat) (a b : list A),
    i ≠ j -> ls !! i = Some a -> ls !! j = Some b ->
    forall x, x ∈ a -> x ∉ b.
Proof.
  induction ls as [|c ls IH]; intros ND i j a b Hij Hi Hj x Ha Hb; [done|].
  simpl in ND. apply NoDup_app in ND as (_ & Hc & ND).
  destruct i as [|i], j as [|j]; simpl in Hi, Hj.
  - done.
  - injection Hi as ->. apply (Hc x Ha). by apply (elem_of_concat_lookup ls j b).
  - injection Hj as ->. apply (Hc x Hb). by apply (elem_of_concat_lookup ls i a).
  - apply (IH ND i j a b ltac:(congruence) Hi Hj x Ha Hb).
Qed.

End Disjoint.

Lemma chained_lookup (rs : list round) :
  chained rs = true ->
  forall (i : nat) (r r' : round),
    rs !! i = Some r -> rs !! S i = Some r' ->
    num_features r' = num_features r - removed r.
Proof.
  induction rs as [|a rs IH]; [done|].
  intros H i r r' Hi Hi'. destruct rs as [|b rs]; [by destruct i|].
  cbn [chained] in H. apply andb_prop in H as [H1 H2].
  destruct i as [|i].
  - simpl in Hi, Hi'. injection Hi as <-. injection Hi' as <-.
    by apply Z.eqb_eq.
  - by apply (IH H2 i).
Qed.

Lemma eliminated_sets_union (rs : list round) (x : Z) :
  x ∈ ⋃ eliminated_sets rs <-> x ∈ eliminated_overall rs.
Proof.
  unfold eliminated_sets, eliminated_overall.
  induction rs as [|r rs IH]; cbn [map concat].
  - rewrite union_list_nil, elem_of_empty, elem_of_nil. tauto.
  - rewrite union_list_cons, elem_of_union, elem_of_list_to_set, elem_of_app, IH.
    tauto.
Qed.

Lemma eliminated_sets_size (rs : list round) :
  NoDup (eliminated_overall rs) ->
  size (⋃ eliminated_sets rs) = length (eliminated_overall rs).
Proof.
  intros ND. rewrite <- (size_list_to_set (C := gset Z)) by done.
  apply set_size_proper. intros x.
  by rewrite eliminated_sets_union, elem_of_list_to_set.
Qed.

(** ** The notebook at hand *)

Lemma report_rows :
  report =
    [ Round 1 10 [8; 9] (Some (983 # 1000));
      Round 2 8 [5] (Some (969 # 1000));
      Round 3 7 [7] (Some (984 # 1000));
      Round 4 6 [1] (Some (979 # 1000));
      Round 5 5 [4] (Some (978 # 1000));
      Round 6 4 [6] (Some (989 # 1000));
      Round 7 3 [3] (Some (991 # 1000));
      Round 8 2 [0] (Some (956 # 1000));
      Round 9 1 [] (Some (969 # 1000)) ].
Proof. vm_compute. reflexivity. Qed.

Lemma notebook_runs :
  exists steps st, run notebook = Ok steps st.
Proof. vm_compute. eauto. Qed.

(** Every call that takes a seed is given 42, and so is numpy's global
    generator. *)
Lemma random_states_fixed :
  calls_with_keyword "random_state" (final_trace (run notebook)) =
    [ ("sklearn.datasets.make_classification", VInt 42);
      ("sklearn.model_selection.train_test_split", VInt 42);
      ("sklearn.model_selection.StratifiedKFold", VInt 42);
      ("sklearn.ensemble.RandomForestClassifier", VInt 42);
      ("sklearn.model_selection.RandomizedSearchCV", VInt 42);
      ("probatus.feature_elimination.ShapRFECV", VInt 42) ] /\
  In (Event "numpy.random.seed" [VInt 42] []) (final_trace (run notebook)).
Proof. split; vm_compute; [reflexivity|]. tauto. Qed.

(** *** The table of the last cell *)

(** C2.  The table rendered by the last cell has exactly three columns,
    [num_features], [eliminated_features] and [val_metric_mean], the very
    ones the cell selects from the report; its rows are labelled 1 to 9 and
    each holds one cell per column: an integer count, a list of feature
    indices and a metric. *)
Theorem report_table_three_columns :
  exists df : DataFrame,
    report_frame = Some df /\
    columns df = ["num_features"; "eliminated_features"; "val_metric_mean"] /\
    selected_columns cell_report = Some (columns df) /\
    index df = [1; 2; 3; 4; 5; 6; 7; 8; 9] /\
    Forall (fun row => length row = 3%nat) (data df) /\
    rounds_of df = Some report /\
    map round_no report = index df.
Proof.
  destruct report_frame as [df|] eqn:E; [|by vm_compute in E].
  exists df. split; [done|].
  assert (Hcols : columns df =
            ["num_features"; "eliminated_features"; "val_metric_mean"]).
  { vm_compute in E. by injection E as <-. }
  split; [done|].
  destruct (read_frame_shape _ _ E) as (_ & _ & Hrows).
  rewrite Hcols in Hrows |- *. split; [by vm_compute|]. split.
  { vm_compute in E. by injection E as <-. }
  split; [done|].
  vm_compute in E. injection E as <-. split; by vm_compute.
Qed.

(** The routine, for any importance, performance and quota. *)

Lemma less_important_trans (imp : Z -> Q) : Transitive (less_important imp).
Proof. intros x y z. unfold less_important. apply Qle_trans. Qed.

Lemma less_important_total (imp : Z -> Q) : Total (less_important imp).
Proof.
  intros x y. unfold less_important.
  destruct (Qlt_le_dec (imp x) (imp y)) as [H|H]; [left|right]; [|done].
  by apply Qlt_le_weak.
Qed.

Lemma ranked_sorted (importance : list Z -> Z -> Q) (fs : list Z) :
  StronglySorted (less_important (importance fs)) (ranked importance fs).
Proof.
  unfold ranked.
  apply (@StronglySorted_merge_sort Z _ (less_important_dec (importance fs))
           (less_important_trans _) (less_important_total _)).
Qed.

Lemma ranked_Permutation (importance : list Z -> Z -> Q) (fs : list Z) :
  ranked importance fs ≡ₚ fs.
Proof. unfold ranked. apply merge_sort_Permutation. Qed.

Lemma ranked_split (importance : list Z -> Z -> Q) (quota : nat -> nat)
    (fs : list Z) :
  least_important importance quota fs ++ survivors importance quota fs
  = ranked importance fs.
Proof. apply take_drop. Qed.

(** What a round removes is in play. *)
Lemma least_important_in_play (importance : list Z -> Z -> Q)
    (quota : nat -> nat) (fs : list Z) (x : Z) :
  x ∈ least_important importance quota fs -> x ∈ fs.
Proof.
  intros Hx. rewrite <- (ranked_Permutation importance fs).
  rewrite <- (ranked_split importance quota fs). apply elem_of_app. by left.
Qed.

(** What a round removes is no more important than anything it keeps. *)
Lemma least_important_least (importance : list Z -> Z -> Q)
    (quota : nat -> nat) (fs : list Z) (x y : Z) :
  x ∈ least_important importance quota fs -> y ∈ fs ->
  y ∉ least_important importance quota fs ->
  (importance fs x <= importance fs y)%Q.
Proof.
  intros Hx Hy Hny.
  rewrite <- (ranked_Permutation importance fs) in Hy.
  rewrite <- (ranked_split importance quota fs) in Hy.
  apply elem_of_app in Hy as [Hy|Hy]; [done|].
  pose proof (ranked_sorted importance fs) as Hs.
  rewrite <- (ranked_split importance quota fs) in Hs.
  exact (StronglySorted_app_1_elem_of _ _ _ _ _ Hs Hx Hy).
Qed.

(** A round that removes something leaves fewer features. *)
Lemma survivors_fewer (importance : list Z -> Z -> Q) (quota : nat -> nat)
    (fs : list Z) :
  least_important importance quota fs <> [] ->
  (length (survivors importance quota fs) < length fs)%nat.
Proof.
  intros Hne.
  assert (Hlen : (0 < length (least_important importance quota fs))%nat).
  { destruct (least_important importance quota fs); [done|simpl; lia]. }
  unfold least_important in Hlen. unfold survivors.
  rewrite length_take in Hlen. rewrite length_drop.
  rewrite (Permutation_length (ranked_Permutation importance fs)) in Hlen |- *.
  lia.
Qed.

Lemma elimination_rounds_sound (importance : list Z -> Z -> Q)
    (performance : list Z -> Q) (quota : nat -> nat)
    (fuel : nat) (no : Z) (fs : list Z) :
  Forall (fun p : list Z * round =>
            val_metric_mean p.2 = Some (performance p.1) /\
            num_features p.2 = Z.of_nat (length p.1) /\
            eliminated_features p.2 = least_important importance quota p.1)
         (elimination_rounds importance performance quota fuel no fs).
Proof.
  revert no fs. induction fuel as [|fuel IH]; intros no fs; simpl.
  - constructor.
  - constructor; [done|].
    destruct (least_important importance quota fs); [constructor|apply IH].
Qed.

(** With a round to spare for every feature the routine comes to its end:
    a round that removes nothing, and records its performance all the
    same. *)
Lemma elimination_rounds_last (importance : list Z -> Z -> Q)
    (performance : list Z -> Q) (quota : nat -> nat)
    (fuel : nat) (no : Z) (fs : list Z) :
  (length fs < fuel)%nat ->
  exists p : list Z * round,
    last (elimination_rounds importance performance quota fuel no fs) = Some p /\
    eliminated_features p.2 = [] /\
    val_metric_mean p.2 = Some (performance p.1).
Proof.
  revert no fs. induction fuel as [|fuel IH]; intros no fs Hlen; [lia|].
  simpl. destruct (least_important importance quota fs) as [|z out] eqn:E.
  - eexists. split; [reflexivity|]. by simpl.
  - assert (Hfew : (length (survivors importance quota fs) < fuel)%nat).
    { pose proof (survivors_fewer importance quota fs) as H.
      rewrite E in H. specialize (H ltac:(done)). lia. }
    destruct (IH (no + 1) _ Hfew) as (p & Hlast & Hp).
    exists p. split; [|done]. by rewrite last_cons, Hlast.
Qed.

(** C4.  The elimination routine goes round by round; what a round removes
    are features in play no more important than any feature it keeps, and
    every round records the performance of the model on the features it
    started from, the final round, which removes nothing, included.  The
    recorded report is such a run on the ten features with the step of the
    notebook: every one of its rows has a [val_metric_mean], the final row
    with no eliminated feature too, and every row before it eliminates
    something. *)
Theorem every_round_records_a_metric :
  (forall (importance : list Z -> Z -> Q) (performance : list Z -> Q)
          (quota : nat -> nat) (fs : list Z),
     Forall (fun p : list Z * round =>
               val_metric_mean p.2 = Some (performance p.1) /\
               forall x y : Z,
                 x ∈ eliminated_features p.2 ->
                 x ∈ p.1 /\
                 (y ∈ p.1 -> y ∉ eliminated_features p.2 ->
                  (importance p.1 x <= importance p.1 y)%Q))
            (elimination_rounds importance performance quota
               (S (length fs)) 1 fs) /\
     exists p : list Z * round,
       last (elimination_rounds importance performance quota
               (S (length fs)) 1 fs) = Some p /\
       eliminated_features p.2 = [] /\
       val_metric_mean p.2 = Some (performance p.1)) /\
  (exists (step : Q) (n : Z) (importance : list Z -> Z -> Q)
          (performance : list Z -> Q),
     shap_step = Some step /\ n_features = Some n /\
     fit_compute importance performance (capped_share step) (seqZ 0 n)
     = report) /\
  Forall (fun r => is_Some (val_metric_mean r)) report /\
  (exists (r : round) (q : Q),
     last report = Some r /\ eliminated_features r = [] /\
     val_metric_mean r = Some q) /\
  (forall (i : nat) (r : round),
     report !! i = Some r -> is_Some (report !! S i) ->
     eliminated_features r <> []).
Proof.
  split; [|split].
  - intros importance performance quota fs. split.
    + eapply Forall_impl; [apply elimination_rounds_sound|].
      intros [fs' r] (Hm & _ & He); simpl in *. split; [done|].
      intros x y Hx. rewrite He in Hx |- *. split.
      * by apply (least_important_in_play importance quota).
      * intros Hy Hny. by apply (least_important_least importance quota).
    + apply elimination_rounds_last. lia.
  - exists (2 # 10)%Q, 10, (elimination_rank report), (metric_of_size report).
    split; [by vm_compute|]. split; [by vm_compute|].
    vm_compute. reflexivity.
  - rewrite report_rows. split; [|split].
    + repeat constructor; by eexists.
    + by eexists _, _.
    + intros i r Hi [r' Hi'].
      do 9 (destruct i as [|i]; [injection Hi as <-; done|]).
      done.
Qed.

Lemma every_round_records_a_metric_witness :
  (exists r : round,
     report !! 0%nat = Some r /\ is_Some (report !! 1%nat) /\
     eliminated_features r <> []) /\
  ((8 ∈ [8; 9]) /\ (2 ∈ seqZ 0 10) /\ (2 ∉ [8; 9]) /\
   (elimination_rank report (seqZ 0 10) 8
    <= elimination_rank report (seqZ 0 10) 2)%Q).
Proof.
  split.
  - exists (Round 1 10 [8; 9] (Some (983 # 1000))).
    assert (H0 : report !! 0%nat = Some (Round 1 10 [8; 9] (Some (983 # 1000))))
      by (vm_compute; reflexivity).
    assert (H1 : is_Some (report !! 1%nat)) by (vm_compute; eauto).
    split; [exact H0|]. split; [exact H1|].
    exact (proj2 (proj2 (proj2 (proj2 every_round_records_a_metric)))
             0%nat _ H0 H1).
  - assert (H8 : 8 ∈ [8; 9]) by (left).
    assert (H2 : 2 ∈ seqZ 0 10) by (apply elem_of_seqZ; lia).
    assert (Hn : 2 ∉ [8; 9]) by (rewrite !elem_of_cons, elem_of_nil; lia).
    split; [exact H8|]. split; [exact H2|]. split; [exact Hn|].
    pose proof (proj1 (proj1 every_round_records_a_metric
                  (elimination_rank report) (metric_of_size report)
                  (capped_share (2 # 10)) (seqZ 0 10))) as Hall.
    apply Forall_inv in Hall. destruct Hall as [_ Hleast].
    exact (proj2 (Hleast 8 2 H8) H2 Hn).
Defined.

(** C6.  From one row of the report to the next, [num_features] drops by
    the number of features the earlier row eliminated; the final row
    eliminates none. *)
Theorem num_features_chain :
  (forall (i : nat) (r r' : round),
     report !! i = Some r -> report !! S i = Some r' ->
     num_features r' =
       num_features r - Z.of_nat (length (eliminated_features r))) /\
  (exists r : round, last report = Some r /\ eliminated_features r = []).
Proof.
  split.
  - apply chained_lookup. by vm_compute.
  - rewrite report_rows. by eexists.
Qed.

Lemma num_features_chain_witness :
  exists r r' : round,
    report !! 0%nat = Some r /\ report !! 1%nat = Some r' /\
    num_features r = 10 /\ num_features r' = 8 /\
    num_features r' =
      num_features r - Z.of_nat (length (eliminated_features r)).
Proof.
  exists (Round 1 10 [8; 9] (Some (983 # 1000))),
         (Round 2 8 [5] (Some (969 # 1000))).
  assert (H0 : report !! 0%nat = Some (Round 1 10 [8; 9] (Some (983 # 1000))))
    by (vm_compute; reflexivity).
  assert (H1 : report !! 1%nat = Some (Round 2 8 [5] (Some (969 # 1000))))
    by (vm_compute; reflexivity).
  split; [exact H0|]. split; [exact H1|].
  split; [reflexivity|]. split; [reflexivity|].
  exact (proj1 num_features_chain 0%nat _ _ H0 H1).
Defined.

(** C7.  [ShapRFECV] is given [step=0.2], and every round of the report
    that still has more than one feature gives up [max(1, floor(0.2 * n))]
    of its [n] features: two of ten, one of eight down to one of two.  The
    terminal round, with one feature left, gives up none. *)
Theorem step_rule :
  shap_step = Some (2 # 10) /\
  map num_features report = [10; 8; 7; 6; 5; 4; 3; 2; 1] /\
  (forall r : round, r ∈ report -> 1 < num_features r ->
     Z.of_nat (length (eliminated_features r)) =
       share (2 # 10) (num_features r)) /\
  (forall r : round, r ∈ report -> num_features r = 10 ->
     length (eliminated_features r) = 2%nat) /\
  (forall r : round, r ∈ report -> 2 <= num_features r <= 8 ->
     length (eliminated_features r) = 1%nat) /\
  (forall r : round, r ∈ report -> num_features r = 1 ->
     length (eliminated_features r) = 0%nat) /\
  (exists r : round, last report = Some r /\ num_features r = 1).
Proof.
  split; [by vm_compute|]. rewrite report_rows.
  split; [done|].
  repeat split.
  - intros r Hr Hn. repeat (apply elem_of_cons in Hr as [->|Hr]; [by vm_compute|]).
    by apply elem_of_nil in Hr.
  - intros r Hr Hn.
    repeat (apply elem_of_cons in Hr as [->|Hr]; [by simpl in *|]).
    by apply elem_of_nil in Hr.
  - intros r Hr [Hlo Hhi].
    repeat (apply elem_of_cons in Hr as [->|Hr]; [simpl in *; first [done|lia]|]).
    by apply elem_of_nil in Hr.
  - intros r Hr Hn.
    repeat (apply elem_of_cons in Hr as [->|Hr]; [by simpl in *|]).
    by apply elem_of_nil in Hr.
  - by eexists.
Qed.

Lemma step_rule_witness :
  exists r : round,
    r ∈ report /\ 1 < num_features r /\
    Z.of_nat (length (eliminated_features r)) = 2 /\
    share (2 # 10) (num_features r) = 2.
Proof.
  exists (Round 1 10 [8; 9] (Some (983 # 1000))).
  assert (Hin : Round 1 10 [8; 9] (Some (983 # 1000)) ∈ report)
    by (rewrite report_rows; left).
  assert (Hn : 1 < num_features (Round 1 10 [8; 9] (Some (983 # 1000))))
    by (simpl; lia).
  split; [exact Hin|]. split; [exact Hn|]. split; [reflexivity|].
  rewrite <- (proj1 (proj2 (proj2 step_rule)) _ Hin Hn). reflexivity.
Defined.

(** C7 as stated does not hold in the terminal round: with one feature
    left the rule asks for one feature, and the report has none removed
    there. *)
Lemma step_rule_fails_in_the_terminal_round :
  ~ (forall r : round, r ∈ report ->
       Z.of_nat (length (eliminated_features r)) =
         share (2 # 10) (num_features r)).
Proof.
  intros H.
  assert (Hin : Round 9 1 [] (Some (969 # 1000)) ∈ report).
  { rewrite report_rows. do 8 right. left. }
  specialize (H _ Hin). vm_compute in H. discriminate.
Qed.

(** With the share capped so that one feature is kept, one rule covers
    every row, the terminal one too. *)
Lemma capped_step_rule :
  Forall (fun r => length (eliminated_features r) =
                     capped_share (2 # 10) (Z.to_nat (num_features r)))
         report.
Proof. rewrite report_rows. repeat constructor. Qed.

(** The rule does not reach the terminal round: of one feature it would
    still take one. *)
Lemma share_of_one : share (2 # 10) 1 = 1.
Proof. reflexivity. Qed.

(** Python multiplies in binary64, not in the rationals.  Rounding a
    product to binary64 is monotone, keeps integers, and changes a positive
    number by at most [binary64_ulp] of it; so the floor of the rounded
    product is the floor [k] of the exact fifth whenever the unrounded
    product is at least [k] and, enlarged by that much, still below
    [k + 1].  That is so for one to ten features. *)
Lemma share_binary64 :
  Forall (fun n : Z =>
            let x := (binary64_0_2 * inject_Z n)%Q in
            let k := Qfloor ((2 # 10) * inject_Z n) in
            (inject_Z k <= x)%Q /\
            (x * (1 + binary64_ulp) < inject_Z (k + 1))%Q)
         (seqZ 1 10).
Proof. repeat constructor; by vm_compute. Qed.

(** C8.  The data set has ten features, indexed 0 to 9, and the first row
    of the report starts from all ten.  The lists of eliminated features of
    different rounds share no index, every index in them is one of the ten,
    together they hold nine indices, and the one index that is never
    eliminated is 2. *)
Theorem eliminated_features_disjoint :
  n_features = Some 10 /\
  (exists r : round, head report = Some r /\ num_features r = 10) /\
  (forall (i j : nat) (ri rj : round),
     i ≠ j -> report !! i = Some ri -> report !! j = Some rj ->
     forall x : Z, x ∈ eliminated_features ri -> x ∉ eliminated_features rj) /\
  (forall (r : round) (x : Z),
     r ∈ report -> x ∈ eliminated_features r -> x ∈ feature_indices 10) /\
  size (⋃ eliminated_sets report) = 9%nat /\
  feature_indices 10 ∖ ⋃ eliminated_sets report = {[ 2 ]}.
Proof.
  assert (Hall : eliminated_overall report = [8; 9; 5; 7; 1; 4; 6; 3; 0])
    by (by vm_compute).
  assert (ND : NoDup (eliminated_overall report)).
  { rewrite Hall. apply (bool_decide_unpack _). by vm_compute. }
  split; [by vm_compute|]. split; [rewrite report_rows; by eexists|].
  split; [|split; [|split]].
  - intros i j ri rj Hij Hi Hj.
    apply (concat_NoDup_disjoint (map eliminated_features report) ND i j);
      [done| |]; change map with (@fmap list _); rewrite list_lookup_fmap.
    + by rewrite Hi.
    + by rewrite Hj.
  - intros r x Hr Hx. unfold feature_indices.
    apply elem_of_list_to_set, elem_of_seqZ.
    assert (Hx' : x ∈ eliminated_overall report).
    { apply list_elem_of_lookup in Hr as [i Hi].
      apply (elem_of_concat_lookup _ i (eliminated_features r)); [|done].
      change map with (@fmap list _). by rewrite list_lookup_fmap, Hi. }
    rewrite Hall in Hx'. set_unfold. lia.
  - by rewrite eliminated_sets_size, Hall.
  - apply set_eq. intros x.
    rewrite elem_of_difference, eliminated_sets_union, Hall.
    unfold feature_indices. rewrite elem_of_list_to_set, elem_of_seqZ.
    set_unfold. lia.
Qed.

Lemma eliminated_features_disjoint_witness :
  exists ri rj : round,
    report !! 0%nat = Some ri /\ report !! 1%nat = Some rj /\
    8 ∈ eliminated_features ri /\ 8 ∉ eliminated_features rj.
Proof.
  exists (Round 1 10 [8; 9] (Some (983 # 1000))),
         (Round 2 8 [5] (Some (969 # 1000))).
  assert (H0 : report !! 0%nat = Some (Round 1 10 [8; 9] (Some (983 # 1000))))
    by (vm_compute; reflexivity).
  assert (H1 : report !! 1%nat = Some (Round 2 8 [5] (Some (969 # 1000))))
    by (vm_compute; reflexivity).
  assert (H8 : 8 ∈ eliminated_features (Round 1 10 [8; 9] (Some (983 # 1000))))
    by (simpl; left).
  split; [exact H0|]. split; [exact H1|]. split; [exact H8|].
  exact (proj1 (proj2 (proj2 eliminated_features_disjoint))
           0%nat 1%nat _ _ ltac:(lia) H0 H1 8 H8).
Defined.

(** *** The steps of the notebook *)

Lemma run_notebook_inv (steps : list (list event)) (st : state) :
  run notebook = Ok steps st ->
  steps = returned (run notebook) /\ trace st = final_trace (run notebook).
Proof. by intros ->. Qed.

(** C3 as listed does not hold.  The notebook makes a call that is none
    of the listed steps: between
    building the search wrapper and the elimination routine it seeds
    numpy's global generator.  So the calls made are not exactly the listed
    ones. *)
Lemma listed_steps_miss_a_call :
  ~ (calls_made notebook = concat listed_steps).
Proof.
  intros H.
  assert (Hin : In "numpy.random.seed" (calls_made notebook))
    by (vm_compute; tauto).
  rewrite H in Hin. vm_compute in Hin. intuition discriminate.
Qed.

(** C3, amended.  The notebook runs without error, cell after cell in the
    order the kernel stamped them, and makes these library calls in this
    order: [make_classification]; [train_test_split] and [StratifiedKFold];
    [RandomForestClassifier]; [RandomizedSearchCV]; [numpy.random.seed];
    [ShapRFECV] and its [fit_compute]; the column selection on the report,
    whose rendering is recorded as a table.  Every code cell makes at least
    one call, and every call goes to a module the notebook imports. *)
Theorem notebook_steps :
  exists (steps : list (list event)) (st : state),
    run notebook = Ok steps st /\
    map (map callee) steps =
      [ ["sklearn.datasets.make_classification"];
        ["sklearn.model_selection.train_test_split";
         "sklearn.model_selection.StratifiedKFold"];
        ["sklearn.ensemble.RandomForestClassifier"];
        ["sklearn.model_selection.RandomizedSearchCV"];
        ["numpy.random.seed"];
        ["probatus.feature_elimination.ShapRFECV";
         "probatus.feature_elimination.ShapRFECV.fit_compute"];
        ["probatus.feature_elimination.ShapRFECV.fit_compute.__getitem__"] ] /\
    trace st = concat steps /\
    Forall (fun evs => evs <> []) steps /\
    Forall (fun f => existsb (fun m => String.prefix m f)
                       (imported_modules notebook) = true)
           (map callee (trace st)) /\
    execution_counts notebook = [8; 9; 10; 15; 16; 17; 19]%nat /\
    is_Some report_frame.
Proof.
  destruct (run notebook) as [steps st|] eqn:E; [|by vm_compute in E].
  exists steps, st. split; [done|].
  pose proof (run_cells_trace _ _ _ _ E) as Htr. simpl in Htr.
  split; [|split; [exact Htr|]].
  all: destruct (run_notebook_inv _ _ E) as [-> Ht]; rewrite ?Ht; clear.
  - by vm_compute.
  - split.
    { set (s := returned (run notebook)). vm_compute in s. subst s.
      repeat constructor; discriminate. }
    split; [apply (bool_decide_unpack _); by vm_compute|].
    split; [by vm_compute|]. vm_compute. eauto.
Qed.

(** *** No concurrency in the notebook *)


(** ** Further properties of the notebook *)

(** *** Cells and the names they need *)

(** X1.  Every code cell but the seeding one and the last hands a name to
    a later cell: leave one out and the pass stops with a [NameError] at
    the first use of a name it would have bound. *)
Theorem cells_need_their_predecessors :
  run (without_cell 8 notebook) = Raise (NameError "X") /\
  run (without_cell 9 notebook) = Raise (NameError "cv2") /\
  run (without_cell 10 notebook) = Raise (NameError "clf") /\
  run (without_cell 15 notebook) = Raise (NameError "search") /\
  run (without_cell 17 notebook) = Raise (NameError "report").
Proof. repeat split; vm_compute; reflexivity. Qed.

(** X2.  The seeding cell is optional in the sense its comment gives it:
    without it the pass still succeeds, the other cells make the same
    calls with the same arguments, and the namespace differs only by the
    name [np]. *)
Theorem seeding_cell_is_optional :
  (exists steps st, run (without_cell 16 notebook) = Ok steps st) /\
  returned (run (without_cell 16 notebook)) =
    delete 4%nat (returned (run notebook)) /\
  final_globals (run (without_cell 16 notebook)) =
    delete "np" (final_globals (run notebook)).
Proof.
  split; [vm_compute; eauto|]. split; vm_compute; reflexivity.
Qed.

(** *** What reaches the elimination routine *)

(** X3.  [fit_compute] is handed the two components of what
    [make_classification] returned, the whole data set.  The pieces made by
    [train_test_split] are bound to names but never handed to any call. *)
Theorem elimination_runs_on_the_whole_data_set :
  first_call "probatus.feature_elimination.ShapRFECV.fit_compute"
    (final_trace (run notebook)) =
    Some (Event "probatus.feature_elimination.ShapRFECV.fit_compute"
            [ VObj "sklearn.datasets.make_classification" [0%nat];
              VObj "sklearn.datasets.make_classification" [1%nat] ] []) /\
  Forall (fun x => exists i : nat,
            final_globals (run notebook) !! x =
              Some (VObj "sklearn.model_selection.train_test_split" [i]))
         ["X_train"; "X_test"; "y_train"; "y_test"] /\
  Forall (fun ev => receives "sklearn.model_selection.train_test_split" ev = false)
         (final_trace (run notebook)).
Proof.
  split; [vm_compute; reflexivity|]. split.
  - repeat constructor; eexists; vm_compute; reflexivity.
  - set (tr := final_trace (run notebook)). vm_compute in tr. subst tr.
    repeat constructor.
Qed.

(** X4.  The estimator [ShapRFECV] works on is the search wrapper, the
    search wrapper wraps the random forest and the grid of three by four
    settings, and the folds are those of the shuffled splitter, not the
    plain integer [cv1]. *)
Theorem elimination_estimator_chain :
  exists shap search : event,
    first_call "probatus.feature_elimination.ShapRFECV"
      (final_trace (run notebook)) = Some shap /\
    first_call "sklearn.model_selection.RandomizedSearchCV"
      (final_trace (run notebook)) = Some search /\
    assoc "clf" (kwargs shap) =
      Some (VObj "sklearn.model_selection.RandomizedSearchCV" []) /\
    assoc "cv" (kwargs shap) =
      Some (VObj "sklearn.model_selection.StratifiedKFold" []) /\
    assoc "scoring" (kwargs shap) = Some (VStr "roc_auc") /\
    args search =
      [ VObj "sklearn.ensemble.RandomForestClassifier" [];
        VDict [ (VStr "n_estimators", VList [VInt 5; VInt 7; VInt 10]);
                (VStr "max_leaf_nodes",
                 VList [VInt 3; VInt 5; VInt 7; VInt 10]) ] ] /\
    assoc "n_iter" (kwargs search) = Some (VInt 1) /\
    final_globals (run notebook) !! "cv1" = Some (VInt 5).
Proof.
  eexists _, _. split; [vm_compute; reflexivity|].
  split; [vm_compute; reflexivity|].
  repeat split; vm_compute; reflexivity.
Qed.

(** X5.  Every call that builds data, a split, an estimator or the
    elimination object is given [random_state=42], and numpy's generator is
    seeded with 42 too.  The only calls without a seed of their own are
    [fit_compute] and the column selection on its result. *)
Theorem only_fit_and_selection_are_unseeded :
  Forall (fun ev =>
            seeded ev = true \/
            seeded ev = false /\
            In (callee ev)
              [ "probatus.feature_elimination.ShapRFECV.fit_compute";
                "probatus.feature_elimination.ShapRFECV.fit_compute.__getitem__" ])
         (final_trace (run notebook)) /\
  map callee (List.filter seeded (final_trace (run notebook))) =
    [ "sklearn.datasets.make_classification";
      "sklearn.model_selection.train_test_split";
      "sklearn.model_selection.StratifiedKFold";
      "sklearn.ensemble.RandomForestClassifier";
      "sklearn.model_selection.RandomizedSearchCV";
      "numpy.random.seed";
      "probatus.feature_elimination.ShapRFECV" ].
Proof.
  split; [|vm_compute; reflexivity].
  set (tr := final_trace (run notebook)). vm_compute in tr. subst tr.
  repeat first
    [ apply Forall_nil | apply Forall_cons
    | left; reflexivity | right; split; [reflexivity|simpl; tauto] | split ].
Qed.

(** *** The two recordings of the result *)

(** X6.  The HTML table and the plain-text table stored for the last cell
    hold the same frame: the same column names, row labels and cells. *)
Theorem html_and_text_agree :
  exists df : DataFrame,
    read_html report_html = Some df /\
    read_frame (recorded_output notebook) = Some df.
Proof. eexists. split; vm_compute; reflexivity. Qed.

(** *** Features in play *)

Lemma eliminated_overall_snoc (rs : list round) (r : round) :
  eliminated_overall (rs ++ [r]) = eliminated_overall rs ++ eliminated_features r.
Proof.
  unfold eliminated_overall. rewrite map_app, concat_app. simpl.
  by rewrite app_nil_r.
Qed.

(** In a report whose rows are chained, a row has as many features as the
    first row had, less all those eliminated in the rows before it. *)
Lemma chained_conservation (rs : list round) (r0 : round) :
  chained rs = true -> rs !! 0%nat = Some r0 ->
  forall (i : nat) (r : round),
    rs !! i = Some r ->
    num_features r =
      num_features r0 - Z.of_nat (length (eliminated_overall (take i rs))).
Proof.
  intros Hch H0 i. induction i as [|i IH]; intros r Hi.
  - rewrite H0 in Hi. injection Hi as <-. rewrite take_0. simpl. lia.
  - destruct (rs !! i) as [p|] eqn:Hp.
    + rewrite (take_S_r _ _ _ Hp), eliminated_overall_snoc, length_app.
      rewrite (chained_lookup rs Hch i p r Hp Hi), (IH p eq_refl).
      unfold removed. lia.
    + apply lookup_ge_None in Hp. apply lookup_lt_Some in Hi. lia.
Qed.

(** X7.  At every round of the report the features still in play and the
    features eliminated in earlier rounds add up to the ten of the data
    set; the features in play are the ten indices less those eliminated so
    far. *)
Theorem features_in_play (i : nat) (r : round) :
  report !! i = Some r ->
  num_features r + Z.of_nat (length (eliminated_overall (take i report))) = 10 /\
  Z.of_nat (size (feature_indices 10 ∖ ⋃ eliminated_sets (take i report))) =
    num_features r.
Proof.
  intros Hi. split.
  - assert (H0 : report !! 0%nat = Some (Round 1 10 [8; 9] (Some (983 # 1000))))
      by (vm_compute; reflexivity).
    assert (Hch : chained report = true) by (vm_compute; reflexivity).
    rewrite (chained_conservation report _ Hch H0 i r Hi). simpl. lia.
  - rewrite report_rows in Hi |- *.
    do 9 (destruct i as [|i]; [injection Hi as <-; vm_compute; reflexivity|]).
    done.
Qed.

Lemma features_in_play_witness :
  exists r : round,
    report !! 3%nat = Some r /\ num_features r = 6 /\
    eliminated_overall (take 3 report) = [8; 9; 5; 7] /\
    Z.of_nat (size (feature_indices 10 ∖ ⋃ eliminated_sets (take 3 report))) = 6.
Proof.
  exists (Round 4 6 [1] (Some (979 # 1000))).
  assert (H3 : report !! 3%nat = Some (Round 4 6 [1] (Some (979 # 1000))))
    by (vm_compute; reflexivity).
  split; [exact H3|]. split; [reflexivity|].
  split; [vm_compute; reflexivity|].
  exact (proj2 (features_in_play 3 _ H3)).
Defined.

